(** * tableauserverclient.models.project_item: a shallow embedding

  The development follows [models/project_item.py].  Python values of type
  [Optional[str]] are [option string]; a method that can raise returns a
  [result]; a method that mutates [self] and can raise lives in the
  state-and-exception monad [M]; instance attributes written through
  [setattr] live in a finite map keyed by the attribute name. *)

From Stdlib Require Import Ascii.
From stdpp Require Import gmap strings list fin_maps.

Open Scope string_scope.
Open Scope list_scope.

(** ** The fragment of the Python runtime the module relies on *)

Module Py.

Inductive exn : Type :=
| ValidationError
| UnpopulatedPropertyError (msg : string)
| AttributeError
| ValueError
| TypeError
| SyntaxError
| ParseError
| EntitiesForbidden.

Inductive result (A : Type) : Type :=
| Ok (a : A)
| Raise (e : exn).
Arguments Ok {A} a.
Arguments Raise {A} e.

#[global] Instance result_ret : MRet result := λ A a, Ok a.
#[global] Instance result_bind : MBind result := λ A B f r,
  match r with
  | Ok a => f a
  | Raise e => Raise e
  end.

(** A method body running against the receiver [S]: the outcome and the
    receiver as the body left it, also when the body raised. *)
Definition M (S A : Type) : Type := S → result A * S.

Definition ret {S A} (a : A) : M S A := λ self, (Ok a, self).
Definition raise {S A} (e : exn) : M S A := λ self, (Raise e, self).
Definition bind {S A B} (c : M S A) (k : A → M S B) : M S B := λ self,
  match c self with
  | (Ok a, self') => k a self'
  | (Raise e, self') => (Raise e, self')
  end.
Definition modify {S} (f : S → S) : M S unit := λ self, (Ok tt, f self).
Definition lift {S A} (r : result A) : M S A := λ self, (r, self).

(** Truth value of an [Optional[str]]: [None] and the empty string are
    false. *)
Definition truthy (v : option string) : bool :=
  match v with
  | None => false
  | Some "" => false
  | Some _ => true
  end.

(** [str.lower] on the ASCII range; the other bytes are kept. *)
Definition lower_ascii (c : ascii) : ascii :=
  let n := nat_of_ascii c in
  if (65 <=? n)%nat && (n <=? 90)%nat then ascii_of_nat (n + 32) else c.

Fixpoint lower (s : string) : string :=
  match s with
  | EmptyString => EmptyString
  | String c s' => String (lower_ascii c) (lower s')
  end.

(** A [for] loop whose body may raise, threading the loop's variables. *)
Fixpoint for_each {A B} (body : B → A → result B) (l : list A) (acc : B)
  : result B :=
  match l with
  | [] => Ok acc
  | x :: l' => acc' ← body acc x; for_each body l' acc'
  end.

(** Unpacking a sequence into [n] assignment targets. *)
Definition unpack {A} (n : nat) (t : list A) : result (list A) :=
  if decide (length t = n) then Ok t else Raise ValueError.

End Py.
Import Py.

Notation "x <~ c ;; k" := (Py.bind c (λ x, k))
(at level 100, c at next level, k at level 200, right associativity,
 only parsing).
Notation "c ;; k" := (Py.bind c (λ _, k))
(at level 100, k at level 200, right associativity, only parsing).

(** ** xml.etree.ElementTree *)

Module ET.

#[warnings="-register-all"] Inductive Element : Type := mkElement {
  tag : string;
  attrib : gmap string string;
  children : list Element
}.

(** [element.get(key, None)] *)
Definition get (e : Element) (key : string) : option string := attrib e !! key.

(** [element.iter()]: the element, then its subtree in document order. *)
Fixpoint iter (e : Element) : list Element :=
  e :: flat_map iter (children e).

(** The qualified name a prefixed path step stands for. *)
Definition qname (namespaces : gmap string string) (prefix local : string)
  : result string :=
  match namespaces !! prefix with
  | Some uri => Ok ("{" +:+ uri +:+ "}" +:+ local)
  | None => Raise SyntaxError
  end.

(** [element.findall(".//p:local", namespaces)]: every proper descendant
    with the qualified tag, in document order. *)
Definition findall (e : Element) (prefix local : string)
    (namespaces : gmap string string) : result (list Element) :=
  q ← qname namespaces prefix local;
  mret (filter (λ d, tag d = q) (flat_map iter (children e))).

(** [element.find(".//p:local", namespaces)] *)
Definition find (e : Element) (prefix local : string)
    (namespaces : gmap string string) : result (option Element) :=
  l ← findall e prefix local namespaces;
  mret (head l).

End ET.

(** ** models/project_item.py *)

Section ProjectItem.

(** What a permissions provider yields (a list of permission rules in the
    endpoint layer); the class never looks inside. *)
Context {R : Type}.

(** [defusedxml.ElementTree.fromstring], a third-party parser. *)
Variable fromstring : string → result ET.Element.

Definition provider : Type := unit → R.

Definition ERROR_MSG : string :=
  "Project item must be populated with permissions first.".

(** class ContentPermissions *)
Definition LockedToProject : string := "LockedToProject".
Definition ManagedByOwner : string := "ManagedByOwner".
Definition LockedToProjectWithoutNested : string := "LockedToProjectWithoutNested".
Definition ContentPermissions : list string :=
  [LockedToProject; ManagedByOwner; LockedToProjectWithoutNested].

(** Modelled from the spec: [property_decorators.property_is_enum] is not
    among the sources.  The decorated setter fails with a validation error
    unless the value is a member of the closed enumeration or unset, and
    it fails before the wrapped setter runs. *)
Definition property_is_enum {S} (enum_type : list string)
    (func : option string → M S unit) (value : option string) : M S unit :=
  match value with
  | None => func value
  | Some v => if decide (v ∈ enum_type) then func value else raise ValidationError
  end.

(** The instance.  [__dict__] holds the attributes that are written by
    name through [setattr]. *)
Record ProjectItem : Type := mkProjectItem {
  _content_permissions : option string;
  _id : option string;
  description : option string;
  _name : option string;
  parent_id : option string;
  _samples : option bool;
  _owner_id : option string;
  _permissions : option provider;
  __dict__ : gmap string (option provider)
}.

Definition put__content_permissions (value : option string) (self : ProjectItem) :=
  {| _content_permissions := value; _id := _id self;
     description := description self; _name := _name self;
     parent_id := parent_id self; _samples := _samples self;
     _owner_id := _owner_id self; _permissions := _permissions self;
     __dict__ := __dict__ self |}.

Definition put__id (value : option string) (self : ProjectItem) :=
  {| _content_permissions := _content_permissions self; _id := value;
     description := description self; _name := _name self;
     parent_id := parent_id self; _samples := _samples self;
     _owner_id := _owner_id self; _permissions := _permissions self;
     __dict__ := __dict__ self |}.

Definition put_description (value : option string) (self : ProjectItem) :=
  {| _content_permissions := _content_permissions self; _id := _id self;
     description := value; _name := _name self;
     parent_id := parent_id self; _samples := _samples self;
     _owner_id := _owner_id self; _permissions := _permissions self;
     __dict__ := __dict__ self |}.

Definition put__name (value : option string) (self : ProjectItem) :=
  {| _content_permissions := _content_permissions self; _id := _id self;
     description := description self; _name := value;
     parent_id := parent_id self; _samples := _samples self;
     _owner_id := _owner_id self; _permissions := _permissions self;
     __dict__ := __dict__ self |}.

Definition put_parent_id (value : option string) (self : ProjectItem) :=
  {| _content_permissions := _content_permissions self; _id := _id self;
     description := description self; _name := _name self;
     parent_id := value; _samples := _samples self;
     _owner_id := _owner_id self; _permissions := _permissions self;
     __dict__ := __dict__ self |}.

Definition put__samples (value : option bool) (self : ProjectItem) :=
  {| _content_permissions := _content_permissions self; _id := _id self;
     description := description self; _name := _name self;
     parent_id := parent_id self; _samples := value;
     _owner_id := _owner_id self; _permissions := _permissions self;
     __dict__ := __dict__ self |}.

Definition put__owner_id (value : option string) (self : ProjectItem) :=
  {| _content_permissions := _content_permissions self; _id := _id self;
     description := description self; _name := _name self;
     parent_id := parent_id self; _samples := _samples self;
     _owner_id := value; _permissions := _permissions self;
     __dict__ := __dict__ self |}.

Definition put__permissions (value : option provider) (self : ProjectItem) :=
  {| _content_permissions := _content_permissions self; _id := _id self;
     description := description self; _name := _name self;
     parent_id := parent_id self; _samples := _samples self;
     _owner_id := _owner_id self; _permissions := value;
     __dict__ := __dict__ self |}.

(** [setattr(self, attr, value)] and [getattr(self, attr)] *)
Definition setattr (attr : string) (value : option provider) (self : ProjectItem) :=
  {| _content_permissions := _content_permissions self; _id := _id self;
     description := description self; _name := _name self;
     parent_id := parent_id self; _samples := _samples self;
     _owner_id := _owner_id self; _permissions := _permissions self;
     __dict__ := <[attr := value]> (__dict__ self) |}.

Definition getattr (self : ProjectItem) (attr : string) : result (option provider) :=
  match __dict__ self !! attr with
  | Some value => Ok value
  | None => Raise AttributeError
  end.

(** The object [__init__] receives: nothing assigned yet. *)
Definition object : ProjectItem :=
  {| _content_permissions := None; _id := None; description := None;
     _name := None; parent_id := None; _samples := None; _owner_id := None;
     _permissions := None; __dict__ := ∅ |}.

(** *** Properties *)

Definition content_permissions (self : ProjectItem) : option string :=
  _content_permissions self.

Definition content_permissions_setter : option string → M ProjectItem unit :=
  property_is_enum ContentPermissions
    (λ value, modify (put__content_permissions value)).

Definition id (self : ProjectItem) : option string := _id self.

Definition name (self : ProjectItem) : option string := _name self.

Definition name_setter (value : option string) : M ProjectItem unit :=
  modify (put__name value).

Definition owner_id (self : ProjectItem) : option string := _owner_id self.

Definition owner_id_setter (value : option string) : M ProjectItem unit :=
  modify (put__owner_id value).

(** *** Construction *)

Definition __init__ (name description content_permissions parent_id : option string)
    (samples : option bool) : result ProjectItem :=
  let body : M ProjectItem unit :=
    modify (put__content_permissions None) ;;
    modify (put__id None) ;;
    modify (put_description description) ;;
    name_setter name ;;
    content_permissions_setter content_permissions ;;
    modify (put_parent_id parent_id) ;;
    modify (put__samples samples) ;;
    modify (put__owner_id None) ;;
    modify (put__permissions None) ;;
    modify (setattr "_default_workbook_permissions" None) ;;
    modify (setattr "_default_datasource_permissions" None) ;;
    modify (setattr "_default_flow_permissions" None) ;;
    modify (setattr "_default_lens_permissions" None) ;;
    modify (setattr "_default_datarole_permissions" None) ;;
    modify (setattr "_default_metric_permissions" None) ;;
    modify (setattr "_default_virtualconnection_permissions" None) ;;
    modify (setattr "_default_database_permissions" None) ;;
    modify (setattr "_default_table_permissions" None)
  in
  match body object with
  | (Ok _, self) => Ok self
  | (Raise e, _) => Raise e
  end.

(** *** Deferred permission accessors *)

(** The body shared by the accessors: an unset slot raises, a provider is
    called. *)
Definition deferred (slot : option provider) : result R :=
  match slot with
  | None => Raise (UnpopulatedPropertyError ERROR_MSG)
  | Some populated => Ok (populated tt)
  end.

Definition permissions (self : ProjectItem) : result R :=
  deferred (_permissions self).

Definition default_datasource_permissions (self : ProjectItem) : result R :=
  getattr self "_default_datasource_permissions" ≫= deferred.

Definition default_workbook_permissions (self : ProjectItem) : result R :=
  getattr self "_default_workbook_permissions" ≫= deferred.

Definition default_flow_permissions (self : ProjectItem) : result R :=
  getattr self "_default_flow_permissions" ≫= deferred.

Definition default_lens_permissions (self : ProjectItem) : result R :=
  getattr self "_default_lens_permissions" ≫= deferred.

Definition default_datarole_permissions (self : ProjectItem) : result R :=
  getattr self "_default_datarole_permissions" ≫= deferred.

Definition default_metric_permissions (self : ProjectItem) : result R :=
  getattr self "_default_metric_permissions" ≫= deferred.

Definition default_virtualconnection_permissions (self : ProjectItem) : result R :=
  getattr self "_default_virtualconnection_permissions" ≫= deferred.

Definition default_database_permissions (self : ProjectItem) : result R :=
  getattr self "_default_database_permissions" ≫= deferred.

Definition default_table_permissions (self : ProjectItem) : result R :=
  getattr self "_default_table_permissions" ≫= deferred.

(** *** Methods *)

(** [self.name.lower() == "default"]; [None] has no [lower]. *)
Definition is_default (self : ProjectItem) : result bool :=
  match name self with
  | Some s => Ok (bool_decide (lower s = "default"))
  | None => Raise AttributeError
  end.

(** The six-tuple [(id, name, description, content_permissions, parent_id,
    owner_id)], as the sequence of its components. *)
Definition _parse_element (project_xml : ET.Element) : list (option string) :=
  let id := ET.get project_xml "id" in
  let name := ET.get project_xml "name" in
  let description := ET.get project_xml "description" in
  let content_permissions := ET.get project_xml "contentPermissions" in
  let parent_id := ET.get project_xml "parentProjectId" in
  let owner_id := None in
  let owner_id :=
    fold_left (λ owner_id owner, ET.get owner "id")
              (ET.children project_xml) owner_id in
  [id; name; description; content_permissions; parent_id; owner_id].

Definition _set_values
    (project_id name description content_permissions parent_id owner_id : option string)
    (self : ProjectItem) : ProjectItem :=
  let self := if project_id is Some _ then put__id project_id self else self in
  let self := if truthy name then put__name name self else self in
  let self := if truthy description then put_description description self else self in
  let self := if truthy content_permissions
              then put__content_permissions content_permissions self else self in
  let self := if truthy parent_id then put_parent_id parent_id self else self in
  let self := if truthy owner_id then put__owner_id owner_id self else self in
  self.

(** A call [self._set_values(...)] with the given positional arguments:
    the method takes exactly six besides [self]. *)
Definition call_set_values (args : list (option string)) : M ProjectItem unit :=
  match args with
  | [project_id; name; description; content_permissions; parent_id; owner_id] =>
      modify (_set_values project_id name description content_permissions
                          parent_id owner_id)
  | _ => raise TypeError
  end.

(** The first argument is an [ET.Element] ([inl]) or a raw document
    ([inr]).  The method returns [self], the receiver of the final state. *)
Definition _parse_common_tags (project_xml : ET.Element + string)
    (ns : gmap string string) : M ProjectItem unit :=
  project_xml <~
    match project_xml with
    | inl element => ret (Some element)
    | inr raw => lift (root ← fromstring raw; ET.find root "t" "project" ns)
    end ;;
  match project_xml with
  | Some project_xml =>
      targets <~ lift (unpack 5 (_parse_element project_xml)) ;;
      match targets with
      | [_; name; description; content_permissions; parent_id] =>
          call_set_values [None; name; description; content_permissions; parent_id]
      | _ => raise ValueError
      end
  | None => ret tt
  end.

Definition _set_permissions (permissions : option provider)
    (self : ProjectItem) : ProjectItem :=
  put__permissions permissions self.

Definition _set_default_permissions (permissions : option provider)
    (content_type : string) (self : ProjectItem) : ProjectItem :=
  let attr := lower ("_default_" +:+ content_type +:+ "_permissions") in
  setattr attr permissions self.

Definition from_xml (project_xml : ET.Element) : result ProjectItem :=
  project_item ← __init__ None None None None None;
  match call_set_values (_parse_element project_xml) project_item with
  | (Ok _, project_item) => Ok project_item
  | (Raise e, _) => Raise e
  end.

Definition from_response (resp : string) (ns : gmap string string)
    : result (list ProjectItem) :=
  let all_project_items := [] in
  parsed_response ← fromstring resp;
  all_project_xml ← ET.findall parsed_response "t" "project" ns;
  for_each
    (λ all_project_items project_xml,
       project_item ← from_xml project_xml;
       mret (all_project_items ++ [project_item]))
    all_project_xml all_project_items.

(** *** Vocabulary of the statements *)

(** The values the stored content-permission mode may take: unset, or a
    member of [ContentPermissions]. *)
Definition allowed_modes : list (option string) :=
  None :: (Some <$> ContentPermissions).

(** What a parsed attribute leaves in a freshly built item: an empty
    attribute is dropped like an absent one. *)
Definition non_empty (v : option string) : option string := if truthy v then v else None.

(** What [__init__] builds when it returns. *)
Definition constructed (name description content_permissions parent_id : option string)
    (samples : option bool) : ProjectItem :=
  {| _content_permissions := content_permissions; _id := None;
     description := description; _name := name; parent_id := parent_id;
     _samples := samples; _owner_id := None; _permissions := None;
     __dict__ :=
       <["_default_table_permissions" := None]>
       (<["_default_database_permissions" := None]>
       (<["_default_virtualconnection_permissions" := None]>
       (<["_default_metric_permissions" := None]>
       (<["_default_datarole_permissions" := None]>
       (<["_default_lens_permissions" := None]>
       (<["_default_flow_permissions" := None]>
       (<["_default_datasource_permissions" := None]>
       (<["_default_workbook_permissions" := None]> ∅)))))))) |}.

(** The item [from_xml] builds from an element. *)
Definition item_of (project_xml : ET.Element) : ProjectItem :=
  _set_values (ET.get project_xml "id") (ET.get project_xml "name")
    (ET.get project_xml "description")
    (ET.get project_xml "contentPermissions")
    (ET.get project_xml "parentProjectId")
    (last (ET.children project_xml) ≫= λ owner, ET.get owner "id")
    (constructed None None None None None).

(** The owner id as the specification words it: the id attribute of the
    first immediate child that carries one. *)
Definition spec_owner_id (project_xml : ET.Element) : option string :=
  head (omap (λ owner, ET.get owner "id") (ET.children project_xml)).

(** The content types that have default permissions, the name each goes
    by, the attribute that holds its provider and its accessor. *)
Inductive content_type : Type :=
| Workbook | Datasource | Flow | Lens | Datarole | Metric
| Virtualconnection | Database | Table.

Definition content_type_name (c : content_type) : string :=
  match c with
  | Workbook => "workbook"
  | Datasource => "datasource"
  | Flow => "flow"
  | Lens => "lens"
  | Datarole => "datarole"
  | Metric => "metric"
  | Virtualconnection => "virtualconnection"
  | Database => "database"
  | Table => "table"
  end.

Definition slot_name (c : content_type) : string :=
  match c with
  | Workbook => "_default_workbook_permissions"
  | Datasource => "_default_datasource_permissions"
  | Flow => "_default_flow_permissions"
  | Lens => "_default_lens_permissions"
  | Datarole => "_default_datarole_permissions"
  | Metric => "_default_metric_permissions"
  | Virtualconnection => "_default_virtualconnection_permissions"
  | Database => "_default_database_permissions"
  | Table => "_default_table_permissions"
  end.

Definition default_permissions (c : content_type) : ProjectItem → result R :=
  match c with
  | Workbook => default_workbook_permissions
  | Datasource => default_datasource_permissions
  | Flow => default_flow_permissions
  | Lens => default_lens_permissions
  | Datarole => default_datarole_permissions
  | Metric => default_metric_permissions
  | Virtualconnection => default_virtualconnection_permissions
  | Database => default_database_permissions
  | Table => default_table_permissions
  end.

(** *** __repr__ *)

(** An argument of [str.format] under a bare replacement field: a string
    prints as it is, [None] as "None". *)
Definition format_arg (v : option string) : string :=
  match v with
  | Some s => s
  | None => "None"
  end.

(** [v or default], then formatted. *)
Definition or_else (v : option string) (default : string) : string :=
  if truthy v then format_arg v else default.

(** "<Project {} {} parent={} permissions={}>".format(...) *)
Definition __repr__ (self : ProjectItem) : string :=
  "<Project " +:+ format_arg (_id self) +:+ " " +:+ format_arg (name self)
  +:+ " parent=" +:+ or_else (parent_id self) "None (Top level)"
  +:+ " permissions=" +:+ or_else (content_permissions self) "Not Set"
  +:+ ">".

(** *** Vocabulary of the further statements *)

(** Two updates applied one after the other amount to one: a field of the
    later update counts when the merge would take it, the earlier one's
    otherwise. *)
Definition later_id (new old : option string) : option string :=
  if new is Some _ then new else old.

Definition later (new old : option string) : option string :=
  if truthy new then new else old.

(** Every default-permissions attribute exists, populated or not. *)
Definition slots_present (self : ProjectItem) : Prop :=
  ∀ c, is_Some (__dict__ self !! slot_name c).

End ProjectItem.

(** ** Sample documents *)

Module Sample.

(** The namespace of the REST API and the prefix map the endpoints pass. *)
Definition api : string := "http://tableau.com/api".
Definition ns : gmap string string := {[ "t" := api ]}.

Definition owner (user_id : string) : ET.Element :=
  ET.mkElement "{http://tableau.com/api}owner" {[ "id" := user_id ]} [].

(** A project element with two children carrying an id. *)
Definition two_owners : ET.Element :=
  ET.mkElement "{http://tableau.com/api}project"
    {[ "id" := "p1"; "name" := "Default"; "description" := "";
       "contentPermissions" := "ManagedByOwner" ]}
    [owner "u1"; owner "u2"].

(** A project element whose content-permission mode is not in the
    enumeration. *)
Definition unknown_mode : ET.Element :=
  ET.mkElement "{http://tableau.com/api}project"
    {[ "id" := "p2"; "name" := "Sales"; "contentPermissions" := "Bogus" ]}
    [owner "u3"].

Definition response : ET.Element :=
  ET.mkElement "{http://tableau.com/api}tsResponse" ∅
    [ET.mkElement "{http://tableau.com/api}projects" ∅ [two_owners; unknown_mode]].

(** A parser that knows one document. *)
Definition fromstring (raw : string) : result ET.Element :=
  if decide (raw = "<tsResponse/>") then Ok response else Raise ParseError.

(** A provider and an item that already has an id. *)
Definition rules : unit → nat := λ _, 3.

Definition synced : @ProjectItem nat :=
  _set_values (Some "p1") (Some "A") (Some "d1") None None None
              (constructed None None None None None).

(** A prefix map that binds "t" to another namespace, under which the
    response holds no project element. *)
Definition other_ns : gmap string string := {[ "t" := "urn:other" ]}.

(** The items of the response. *)
Definition items : list (@ProjectItem nat) :=
  [item_of two_owners; item_of unknown_mode].

(** A top-level project as a caller builds it, with the parent unset and
    with an empty parent. *)
Definition top_level : @ProjectItem nat :=
  constructed (Some "Default") None None None None.
Definition top_level' : @ProjectItem nat :=
  constructed (Some "Default") (Some "d") None (Some "") None.

End Sample.

(** ** Properties *)

Section Properties.

Context {R : Type}.
Variable fromstring : string → result ET.Element.

Implicit Types (self : @ProjectItem R) (v : option string).

Lemma for_each_proper {A B} (f g : B → A → result B) (l : list A) (acc : B) :
  (∀ b x, f b x = g b x) → for_each f l acc = for_each g l acc.
Proof.
  intros Hfg. revert acc. induction l as [|x l IH]; intros acc; cbn; [done|].
  rewrite Hfg. destruct (g acc x); cbn; [apply IH | done].
Qed.

Lemma allowed_modes_spec v :
  v ∈ allowed_modes ↔
  v = None ∨ v = Some "LockedToProject" ∨ v = Some "ManagedByOwner"
           ∨ v = Some "LockedToProjectWithoutNested".
Proof.
  unfold allowed_modes, ContentPermissions. cbn.
  rewrite !elem_of_cons, elem_of_nil. tauto.
Qed.

Lemma allowed_Some s : Some s ∈ allowed_modes ↔ s ∈ ContentPermissions.
Proof.
  unfold allowed_modes. rewrite elem_of_cons, list_elem_of_fmap. split.
  - intros [? | (s' & ? & ?)]; [done | by simplify_eq].
  - intros ?. right. by exists s.
Qed.

(** The setter, case by case. *)
Lemma setter_allowed v self :
  v ∈ allowed_modes →
  content_permissions_setter v self = (Ok tt, put__content_permissions v self).
Proof.
  unfold content_permissions_setter, property_is_enum.
  destruct v as [s|]; [|done].
  rewrite allowed_Some. intros ?. by rewrite decide_True.
Qed.

Lemma setter_rejected v self :
  v ∉ allowed_modes →
  content_permissions_setter v self = (Raise ValidationError, self).
Proof.
  unfold content_permissions_setter, property_is_enum.
  destruct v as [s|].
  - rewrite allowed_Some. intros ?. by rewrite decide_False.
  - intros []. apply list_elem_of_here.
Qed.

(** [lower] goes through concatenation. *)
Lemma lower_app (a b : string) : lower (a +:+ b) = lower a +:+ lower b.
Proof. induction a as [|c a IH]; simpl; [done | rewrite IH; reflexivity]. Qed.

Lemma init_allowed n d cp pid s :
  cp ∈ allowed_modes → __init__ (R:=R) n d cp pid s = Ok (constructed n d cp pid s).
Proof.
  intros Hcp. unfold __init__, Py.bind, name_setter, modify.
  by rewrite (setter_allowed _ _ Hcp).
Qed.

Lemma init_rejected n d cp pid s :
  cp ∉ allowed_modes → __init__ (R:=R) n d cp pid s = Raise ValidationError.
Proof.
  intros Hcp. unfold __init__, Py.bind, name_setter, modify.
  by rewrite (setter_rejected _ _ Hcp).
Qed.

Lemma init_inv n d cp pid s self :
  __init__ n d cp pid s = Ok self →
  cp ∈ allowed_modes ∧ self = constructed n d cp pid s.
Proof.
  destruct (decide (cp ∈ allowed_modes)) as [Hcp|Hcp].
  - rewrite (init_allowed _ _ _ _ _ Hcp). intros [= <-]. done.
  - by rewrite (init_rejected _ _ _ _ _ Hcp).
Qed.

(** *** The content-permission mode *)

(** C3.  Assigning [v] to [content_permissions] raises the validation
    error exactly when [v] is neither [None] nor one of LockedToProject,
    ManagedByOwner, LockedToProjectWithoutNested; otherwise the assignment
    succeeds and reading [content_permissions] afterwards gives [v]. *)
Theorem content_permissions_setter_spec v self :
  (fst (content_permissions_setter v self) = Raise ValidationError ↔
     v ≠ None ∧ v ≠ Some "LockedToProject" ∧ v ≠ Some "ManagedByOwner"
     ∧ v ≠ Some "LockedToProjectWithoutNested") ∧
  ((∃ e, fst (content_permissions_setter v self) = Raise e) ↔
     fst (content_permissions_setter v self) = Raise ValidationError) ∧
  (v = None ∨ v = Some "LockedToProject" ∨ v = Some "ManagedByOwner"
     ∨ v = Some "LockedToProjectWithoutNested" →
   ∃ self', content_permissions_setter v self = (Ok tt, self') ∧
            content_permissions self' = v).
Proof.
  destruct (decide (v ∈ allowed_modes)) as [Hv|Hv].
  - rewrite (setter_allowed _ _ Hv). cbn.
    apply allowed_modes_spec in Hv. split_and!.
    + split; [done | tauto].
    + split; [by intros [e ?] | done].
    + eauto.
  - rewrite (setter_rejected _ _ Hv). cbn.
    rewrite allowed_modes_spec in Hv. split_and!.
    + split; [tauto | done].
    + split; [done | eauto].
    + tauto.
Qed.

(** C8.  A rejected assignment to [content_permissions] changes nothing:
    the validation error is raised and the item, the stored mode included,
    is the one the assignment started from. *)
Theorem content_permissions_setter_atomic v self :
  v ≠ None → v ≠ Some "LockedToProject" → v ≠ Some "ManagedByOwner" →
  v ≠ Some "LockedToProjectWithoutNested" →
  content_permissions_setter v self = (Raise ValidationError, self).
Proof.
  intros H1 H2 H3 H4. apply setter_rejected.
  rewrite allowed_modes_spec. tauto.
Qed.

(** *** is_default *)

(** C7.  [is_default] returns true exactly when the name, lowercased, is
    the string "default": "Default" gives true, "default " with a trailing
    space gives false.  (An item without a name has nothing to lowercase:
    the call raises and returns nothing.) *)
Theorem is_default_spec self :
  (is_default self = Ok true ↔ ∃ s, name self = Some s ∧ lower s = "default") ∧
  (∀ s, name self = Some s → is_default self = Ok (bool_decide (lower s = "default"))) ∧
  (name self = Some "Default" → is_default self = Ok true) ∧
  (name self = Some "default " → is_default self = Ok false).
Proof.
  unfold is_default. destruct (name self) as [s|]; split_and!.
  - split.
    + intros [= H]. apply bool_decide_eq_true in H. eauto.
    + intros (s' & [= <-] & H). by rewrite bool_decide_eq_true_2.
  - by intros s' [= <-].
  - by intros [= ->].
  - by intros [= ->].
  - split; [done | by intros (? & ? & _)].
  - done.
  - done.
  - done.
Qed.

(** *** _set_values *)

(** The merge, field by field. *)
Lemma _set_values_fields project_id name' description' content_permissions'
    parent_id' owner_id' self :
  let self' := _set_values project_id name' description' content_permissions'
                           parent_id' owner_id' self in
  id self' = (if project_id is Some _ then project_id else id self) ∧
  name self' = (if truthy name' then name' else name self) ∧
  description self' = (if truthy description' then description' else description self) ∧
  content_permissions self' =
    (if truthy content_permissions' then content_permissions'
     else content_permissions self) ∧
  parent_id self' = (if truthy parent_id' then parent_id' else parent_id self) ∧
  owner_id self' = (if truthy owner_id' then owner_id' else owner_id self).
Proof.
  unfold _set_values, id, name, content_permissions, owner_id.
  destruct project_id, (truthy name'), (truthy description'),
    (truthy content_permissions'), (truthy parent_id'), (truthy owner_id');
    cbn; done.
Qed.

(** What the merge never writes. *)
Lemma _set_values_frame project_id name' description' content_permissions'
    parent_id' owner_id' self :
  let self' := _set_values project_id name' description' content_permissions'
                           parent_id' owner_id' self in
  _samples self' = _samples self ∧
  _permissions self' = _permissions self ∧
  __dict__ self' = __dict__ self.
Proof.
  unfold _set_values.
  destruct project_id, (truthy name'), (truthy description'),
    (truthy content_permissions'), (truthy parent_id'), (truthy owner_id');
    cbn; done.
Qed.

(** C4, as the code has it.  The merge overwrites the id whenever the
    incoming id is not [None] (an empty string included), overwrites name,
    description, content-permission mode, parent id and owner id exactly
    when the incoming value is a non-empty string, and leaves every other
    field as it was. *)
Theorem _set_values_spec project_id name' description' content_permissions'
    parent_id' owner_id' self :
  let self' := _set_values project_id name' description' content_permissions'
                           parent_id' owner_id' self in
  id self' = (if project_id is Some _ then project_id else id self) ∧
  name self' = (if truthy name' then name' else name self) ∧
  description self' = (if truthy description' then description' else description self) ∧
  content_permissions self' =
    (if truthy content_permissions' then content_permissions'
     else content_permissions self) ∧
  parent_id self' = (if truthy parent_id' then parent_id' else parent_id self) ∧
  owner_id self' = (if truthy owner_id' then owner_id' else owner_id self) ∧
  _samples self' = _samples self ∧
  _permissions self' = _permissions self ∧
  __dict__ self' = __dict__ self.
Proof.
  intros self'.
  destruct (_set_values_fields project_id name' description' content_permissions'
              parent_id' owner_id' self) as (?&?&?&?&?&?).
  destruct (_set_values_frame project_id name' description' content_permissions'
              parent_id' owner_id' self) as (?&?&?).
  by split_and!.
Qed.

(** The example of the merge: name "A", description "d1", merged with an
    empty name and description "d2". *)
Lemma _set_values_example self :
  name self = Some "A" → description self = Some "d1" →
  let self' := _set_values None (Some "") (Some "d2") None None None self in
  name self' = Some "A" ∧ description self' = Some "d2".
Proof. intros Hn Hd. cbn. done. Qed.

(** *** Parsing *)

(** A loop that keeps the value of its last iteration. *)
Lemma fold_left_last {A B} (f : A → B) (l : list A) (b : B) :
  fold_left (λ _ x, f x) l b = from_option f b (last l).
Proof.
  revert b. induction l as [|x l IH]; intros b; [done|].
  cbn [fold_left]. rewrite IH, last_cons. by destruct (last l).
Qed.

Lemma _parse_element_eq el :
  _parse_element el =
    [ET.get el "id"; ET.get el "name"; ET.get el "description";
     ET.get el "contentPermissions"; ET.get el "parentProjectId";
     last (ET.children el) ≫= λ owner, ET.get owner "id"].
Proof.
  unfold _parse_element. rewrite fold_left_last.
  by destruct (last (ET.children el)).
Qed.

Lemma from_xml_eq el : from_xml (R:=R) el = Ok (item_of el).
Proof.
  unfold from_xml. rewrite init_allowed by apply list_elem_of_here.
  rewrite _parse_element_eq. reflexivity.
Qed.

Lemma for_each_append {A B} (g : A → B) (l : list A) (acc : list B) :
  for_each (λ acc x, y ← Ok (g x); mret (acc ++ [y])) l acc = Ok (acc ++ (g <$> l)).
Proof.
  revert acc. induction l as [|x l IH]; intros acc; cbn.
  - by rewrite app_nil_r.
  - unfold mret, result_ret, mbind, result_bind in *. cbn.
    rewrite IH. by rewrite <- app_assoc.
Qed.

Lemma from_response_eq resp ns :
  from_response (R:=R) fromstring resp ns =
    (root ← fromstring resp;
     all_project_xml ← ET.findall root "t" "project" ns;
     Ok (fmap (M:=list) item_of all_project_xml)).
Proof.
  unfold from_response. destruct (fromstring resp) as [root|e]; [|done].
  cbn [mbind result_bind].
  destruct (ET.findall root "t" "project" ns) as [els|e]; [|done].
  cbn [mbind result_bind].
  rewrite (for_each_proper _ (λ acc x, y ← Ok (item_of x); mret (acc ++ [y])))
    by (intros acc x; by rewrite from_xml_eq).
  by rewrite for_each_append.
Qed.

(** C1, as the code has it.  The owner id that [_parse_element] returns,
    and that [from_xml] merges into the item, is the id attribute of the
    last immediate child (None when that child has no id attribute), and
    None when the element has no children: of several children carrying an
    id, the last one is returned. *)
Theorem _parse_element_owner_id el :
  _parse_element el !! 5 =
    Some (last (ET.children el) ≫= λ owner, ET.get owner "id") ∧
  (ET.children el = [] → _parse_element el !! 5 = Some None) ∧
  (∀ before owner, ET.children el = before ++ [owner] →
     _parse_element el !! 5 = Some (ET.get owner "id")) ∧
  (∀ self : @ProjectItem R, from_xml el = Ok self →
     owner_id self = non_empty (last (ET.children el) ≫= λ owner, ET.get owner "id")).
Proof.
  rewrite _parse_element_eq. split_and!.
  - done.
  - by intros ->.
  - intros before owner ->. by rewrite last_snoc.
  - intros self. rewrite from_xml_eq. intros [= <-].
    unfold item_of.
    destruct (_set_values_fields (ET.get el "id") (ET.get el "name")
      (ET.get el "description") (ET.get el "contentPermissions")
      (ET.get el "parentProjectId")
      (last (ET.children el) ≫= λ owner, ET.get owner "id")
      (constructed None None None None None)) as (_&_&_&_&_&->).
    done.
Qed.

(** C2, as the code has it.  Construction and the [content_permissions]
    setter leave the stored mode unset or in the closed set.  [_set_values]
    stores a non-empty incoming mode as it comes and keeps the stored one
    otherwise, so it keeps the stored mode in the closed set when the
    incoming one is absent, empty or a member; [from_xml] and
    [from_response] store the contentPermissions attribute of the element
    the same way. *)
Theorem content_permissions_invariant :
  (∀ n d cp pid s self,
     __init__ n d cp pid s = Ok self → content_permissions self ∈ allowed_modes) ∧
  (∀ v self r self',
     content_permissions self ∈ allowed_modes →
     content_permissions_setter v self = (r, self') →
     content_permissions self' ∈ allowed_modes) ∧
  (∀ a b c cp e f self,
     content_permissions (_set_values a b c cp e f self) =
       (if truthy cp then cp else content_permissions self)) ∧
  (∀ a b c cp e f self,
     content_permissions self ∈ allowed_modes → non_empty cp ∈ allowed_modes →
     content_permissions (_set_values a b c cp e f self) ∈ allowed_modes) ∧
  (∀ el self,
     from_xml el = Ok self →
     content_permissions self = non_empty (ET.get el "contentPermissions")) ∧
  (∀ resp ns items,
     from_response fromstring resp ns = Ok items →
     ∃ root project_elements,
       fromstring resp = Ok root ∧
       ET.findall root "t" "project" ns = Ok project_elements ∧
       Forall2 (λ self el, content_permissions self =
                             non_empty (ET.get el "contentPermissions"))
               items project_elements).
Proof.
  assert (Hmerge : ∀ a b c cp e f self,
     content_permissions (_set_values a b c cp e f self) =
       (if truthy cp then cp else content_permissions self)).
  { intros. by destruct (_set_values_fields a b c cp e f self) as (_&_&_&->&_). }
  assert (Hxml : ∀ el, content_permissions (R:=R) (item_of el) =
                       non_empty (ET.get el "contentPermissions")).
  { intros el. unfold item_of. rewrite Hmerge. done. }
  split_and!.
  - intros n d cp pid s self [Hcp ->]%init_inv. done.
  - intros v self r self' Hself.
    destruct (decide (v ∈ allowed_modes)) as [Hv|Hv].
    + rewrite (setter_allowed _ _ Hv). by intros [= _ <-].
    + rewrite (setter_rejected _ _ Hv). by intros [= _ <-].
  - done.
  - intros a b c cp e f self Hself Hcp. rewrite Hmerge.
    unfold non_empty in Hcp. by destruct (truthy cp).
  - intros el self. rewrite from_xml_eq. by intros [= <-].
  - intros resp ns items. rewrite from_response_eq.
    destruct (fromstring resp) as [root|e]; [|done]. cbn [mbind result_bind].
    destruct (ET.findall root "t" "project" ns) as [els|e] eqn:Hels; [|done].
    cbn [mbind result_bind]. intros [= <-]. exists root, els. split_and!; [done..|].
    apply Forall2_fmap_l, Forall_Forall2_diag, Forall_forall. intros el _. apply Hxml.
Qed.

(** C6, as the code has it.  [from_response] returns one item per project
    element the query finds below the root, in document order; the k-th
    item carries the id attribute of the k-th element as it is, and its
    name, description, content-permission mode and parent id when they are
    non-empty; an attribute that is absent or empty leaves None. *)
Theorem from_response_spec resp ns root uri :
  fromstring resp = Ok root → ns !! "t" = Some uri →
  let project_elements :=
    filter (λ d, ET.tag d = "{" +:+ uri +:+ "}project")
           (flat_map ET.iter (ET.children root)) in
  ∃ items : list (@ProjectItem R),
    from_response fromstring resp ns = Ok items ∧
    length items = length project_elements ∧
    ∀ k el, project_elements !! k = Some el →
      ∃ item : @ProjectItem R, items !! k = Some item ∧
              id item = ET.get el "id" ∧
              name item = non_empty (ET.get el "name") ∧
              description item = non_empty (ET.get el "description") ∧
              content_permissions item = non_empty (ET.get el "contentPermissions") ∧
              parent_id item = non_empty (ET.get el "parentProjectId").
Proof.
  intros Hroot Hns els. rewrite from_response_eq, Hroot. cbn [mbind result_bind].
  unfold ET.findall, ET.qname. rewrite Hns. cbn [mbind result_bind mret result_ret].
  fold els. exists (item_of <$> els). split_and!.
  - done.
  - by rewrite length_fmap.
  - intros k el Hk. exists (item_of el). rewrite list_lookup_fmap, Hk.
    split; [done|]. unfold item_of.
    destruct (_set_values_fields (ET.get el "id") (ET.get el "name")
      (ET.get el "description") (ET.get el "contentPermissions")
      (ET.get el "parentProjectId")
      (last (ET.children el) ≫= λ owner, ET.get owner "id")
      (constructed None None None None None)) as (->&->&->&->&->&_).
    unfold non_empty. cbn. by destruct (ET.get el "id").
Qed.

(** *** Deferred permissions *)

Lemma default_permissions_eq c self :
  default_permissions c self = getattr self (slot_name c) ≫= deferred.
Proof. by destruct c. Qed.

Lemma populated_attr c content_type :
  lower content_type = content_type_name c →
  lower ("_default_" +:+ content_type +:+ "_permissions") = slot_name c.
Proof. intros H. rewrite !lower_app, H. by destruct c. Qed.

Lemma constructed_slot n d cp pid s c :
  __dict__ (R:=R) (constructed n d cp pid s) !! slot_name c = Some None.
Proof. by destruct c. Qed.

(** C5.  Each deferred accessor, [permissions] and the nine
    [default_*_permissions], raises UnpopulatedPropertyError exactly when
    its slot holds None, as it does in every item [__init__] returns; with
    a provider in the slot, in particular after [_set_permissions] or
    [_set_default_permissions] stored one, the accessor calls the provider
    and returns its result. *)
Theorem deferred_permissions_spec self :
  (permissions self = Raise (UnpopulatedPropertyError ERROR_MSG) ↔
     _permissions self = None) ∧
  (∀ populate : provider, _permissions self = Some populate →
     permissions self = Ok (populate tt)) ∧
  (∀ populate : provider,
     permissions (_set_permissions (Some populate) self) = Ok (populate tt)) ∧
  (∀ c,
     (default_permissions c self = Raise (UnpopulatedPropertyError ERROR_MSG) ↔
        __dict__ self !! slot_name c = Some None) ∧
     (∀ populate : provider, __dict__ self !! slot_name c = Some (Some populate) →
        default_permissions c self = Ok (populate tt)) ∧
     (∀ (populate : provider) content_type, lower content_type = content_type_name c →
        default_permissions c
          (_set_default_permissions (Some populate) content_type self)
        = Ok (populate tt))) ∧
  (∀ n d cp pid s, __init__ n d cp pid s = Ok self →
     permissions self = Raise (UnpopulatedPropertyError ERROR_MSG) ∧
     ∀ c, default_permissions c self = Raise (UnpopulatedPropertyError ERROR_MSG)).
Proof.
  split_and!.
  - unfold permissions, deferred. by destruct (_permissions self).
  - unfold permissions. by intros populate ->.
  - done.
  - intros c. split_and!.
    + rewrite default_permissions_eq. unfold getattr.
      destruct (__dict__ self !! slot_name c) as [[populate|]|]; cbn; split; done.
    + intros populate Hslot. rewrite default_permissions_eq. unfold getattr.
      by rewrite Hslot.
    + intros populate content_type Hc. rewrite default_permissions_eq.
      unfold getattr, _set_default_permissions, setattr. cbn [__dict__].
      rewrite (populated_attr _ _ Hc). by rewrite lookup_insert_eq.
  - intros n d cp pid s [_ ->]%init_inv. split; [done|].
    intros c. rewrite default_permissions_eq. unfold getattr.
    by rewrite constructed_slot.
Qed.

(** *** _parse_common_tags *)

(** C10, as the code has it.  Whenever [_parse_common_tags] has a project
    element in hand, passed in or found in the document, it raises before
    any field is updated: unpacking the six-tuple of [_parse_element] into
    five targets raises ValueError, so the five-argument call of
    [_set_values], itself a TypeError, is never reached. *)
Theorem _parse_common_tags_raises ns self :
  (∀ element,
     _parse_common_tags fromstring (inl element) ns self = (Raise ValueError, self)) ∧
  (∀ raw root element,
     fromstring raw = Ok root →
     ET.find root "t" "project" ns = Ok (Some element) →
     _parse_common_tags fromstring (inr raw) ns self = (Raise ValueError, self)) ∧
  (∀ a b c d e, call_set_values [a; b; c; d; e] self = (Raise TypeError, self)).
Proof.
  split_and!.
  - intros element. unfold _parse_common_tags, Py.bind, ret, lift.
    by rewrite _parse_element_eq.
  - intros raw root element Hroot Hfind.
    unfold _parse_common_tags, Py.bind, ret, lift.
    rewrite Hroot. cbn [mbind result_bind]. rewrite Hfind.
    by rewrite _parse_element_eq.
  - done.
Qed.

(** Without a project element the method returns the item as it was. *)
Lemma _parse_common_tags_not_found ns self raw root :
  fromstring raw = Ok root → ET.find root "t" "project" ns = Ok None →
  _parse_common_tags fromstring (inr raw) ns self = (Ok tt, self).
Proof.
  intros Hroot Hfind. unfold _parse_common_tags, Py.bind, ret, lift.
  rewrite Hroot. cbn [mbind result_bind]. by rewrite Hfind.
Qed.

(** *** Further properties of the merge *)

Lemma ProjectItem_eq self1 self2 :
  _content_permissions self1 = _content_permissions self2 →
  _id self1 = _id self2 → description self1 = description self2 →
  _name self1 = _name self2 → parent_id self1 = parent_id self2 →
  _samples self1 = _samples self2 → _owner_id self1 = _owner_id self2 →
  _permissions self1 = _permissions self2 → __dict__ self1 = __dict__ self2 →
  self1 = self2.
Proof. destruct self1, self2; cbn; intros; by subst. Qed.

Lemma truthy_later new old : truthy (later new old) = truthy new || truthy old.
Proof. unfold later. by destruct (truthy new) eqn:H; rewrite ?H. Qed.

Lemma later_later newer new old :
  later newer (later new old) = later (later newer new) old.
Proof.
  unfold later at 1 3. rewrite truthy_later.
  destruct (truthy newer) eqn:H; cbn; unfold later; by rewrite ?H.
Qed.

Lemma later_id_later_id newer new old :
  later_id newer (later_id new old) = later_id (later_id newer new) old.
Proof. by destruct newer, new. Qed.

Lemma _set_values_later a b c d e f self :
  let self' := _set_values a b c d e f self in
  _id self' = later_id a (_id self) ∧
  _name self' = later b (_name self) ∧
  description self' = later c (description self) ∧
  _content_permissions self' = later d (_content_permissions self) ∧
  parent_id self' = later e (parent_id self) ∧
  _owner_id self' = later f (_owner_id self).
Proof. apply _set_values_fields. Qed.

(** X1.  Merging two updates in a row is merging their overlay: for each field
    the later update counts when it is present, the earlier one otherwise. *)
Theorem _set_values_compose a1 b1 c1 d1 e1 f1 a2 b2 c2 d2 e2 f2 self :
  _set_values a2 b2 c2 d2 e2 f2 (_set_values a1 b1 c1 d1 e1 f1 self) =
  _set_values (later_id a2 a1) (later b2 b1) (later c2 c1) (later d2 d1)
              (later e2 e1) (later f2 f1) self.
Proof.
  destruct (_set_values_later a2 b2 c2 d2 e2 f2 (_set_values a1 b1 c1 d1 e1 f1 self))
    as (Ha & Hb & Hc & Hd & He & Hf).
  destruct (_set_values_later a1 b1 c1 d1 e1 f1 self)
    as (Ha1 & Hb1 & Hc1 & Hd1 & He1 & Hf1).
  destruct (_set_values_later (later_id a2 a1) (later b2 b1) (later c2 c1)
              (later d2 d1) (later e2 e1) (later f2 f1) self)
    as (Ha' & Hb' & Hc' & Hd' & He' & Hf').
  destruct (_set_values_frame a2 b2 c2 d2 e2 f2 (_set_values a1 b1 c1 d1 e1 f1 self))
    as (Hs & Hp & Hdict).
  destruct (_set_values_frame a1 b1 c1 d1 e1 f1 self) as (Hs1 & Hp1 & Hdict1).
  destruct (_set_values_frame (later_id a2 a1) (later b2 b1) (later c2 c1)
              (later d2 d1) (later e2 e1) (later f2 f1) self)
    as (Hs' & Hp' & Hdict').
  apply ProjectItem_eq.
  - by rewrite Hd, Hd1, Hd', later_later.
  - by rewrite Ha, Ha1, Ha', later_id_later_id.
  - by rewrite Hc, Hc1, Hc', later_later.
  - by rewrite Hb, Hb1, Hb', later_later.
  - by rewrite He, He1, He', later_later.
  - by rewrite Hs, Hs1, Hs'.
  - by rewrite Hf, Hf1, Hf', later_later.
  - by rewrite Hp, Hp1, Hp'.
  - by rewrite Hdict, Hdict1, Hdict'.
Qed.

(** X2.  Merging the same update a second time changes nothing. *)
Theorem _set_values_idempotent a b c d e f self :
  _set_values a b c d e f (_set_values a b c d e f self) =
  _set_values a b c d e f self.
Proof.
  destruct (_set_values_later a b c d e f (_set_values a b c d e f self))
    as (Ha & Hb & Hc & Hd & He & Hf).
  destruct (_set_values_later a b c d e f self)
    as (Ha1 & Hb1 & Hc1 & Hd1 & He1 & Hf1).
  destruct (_set_values_frame a b c d e f (_set_values a b c d e f self))
    as (Hs & Hp & Hdict).
  assert (Hl : ∀ new old, later new (later new old) = later new old).
  { intros new old. unfold later. by destruct (truthy new) eqn:H; rewrite ?H. }
  apply ProjectItem_eq; rewrite ?Ha, ?Hb, ?Hc, ?Hd, ?He, ?Hf, ?Ha1, ?Hb1, ?Hc1,
    ?Hd1, ?He1, ?Hf1, ?Hl; try done.
  by destruct a.
Qed.

(** X3.  An update that carries nothing, no id and only absent or empty fields,
    returns the item as it was. *)
Theorem _set_values_nothing b c d e f self :
  truthy b = false → truthy c = false → truthy d = false →
  truthy e = false → truthy f = false →
  _set_values None b c d e f self = self.
Proof. intros Hb Hc Hd He Hf. unfold _set_values. by rewrite Hb, Hc, Hd, He, Hf. Qed.

(** X4.  The merge never erases: an id that is set stays set, and a name,
    description, mode, parent id or owner id that is a non-empty string
    stays a non-empty string, whatever the update. *)
Theorem _set_values_never_erases a b c d e f self :
  let self' := _set_values a b c d e f self in
  (id self ≠ None → id self' ≠ None) ∧
  (truthy (name self) = true → truthy (name self') = true) ∧
  (truthy (description self) = true → truthy (description self') = true) ∧
  (truthy (content_permissions self) = true →
     truthy (content_permissions self') = true) ∧
  (truthy (parent_id self) = true → truthy (parent_id self') = true) ∧
  (truthy (owner_id self) = true → truthy (owner_id self') = true).
Proof.
  cbv zeta. unfold id, name, content_permissions, owner_id.
  destruct (_set_values_later a b c d e f self) as (-> & -> & -> & -> & -> & ->).
  rewrite !truthy_later. split_and!.
  - by destruct a.
  - intros ->. apply orb_true_r.
  - intros ->. apply orb_true_r.
  - intros ->. apply orb_true_r.
  - intros ->. apply orb_true_r.
  - intros ->. apply orb_true_r.
Qed.

(** *** Further properties of the deferred permissions *)









(** [_set_permissions] decides what [permissions] yields and nothing else:
    the default accessors and the fields of the item are as before. *)
Lemma _set_permissions_lookup (permissions' : option provider) self :
  let self' := _set_permissions permissions' self in
  permissions self' = deferred permissions' ∧
  (∀ c, default_permissions c self' = default_permissions c self) ∧
  id self' = id self ∧ name self' = name self ∧
  description self' = description self ∧
  content_permissions self' = content_permissions self ∧
  parent_id self' = parent_id self ∧ owner_id self' = owner_id self.
Proof.
  cbv zeta. split_and!; try done.
  intros c. by rewrite !default_permissions_eq.
Qed.

(** X7.  The default-permissions attributes that [__init__] creates are never
    removed: every mutator keeps all nine, so on an item that went through
    [__init__] a default accessor either raises UnpopulatedPropertyError or
    returns the provider's result, and never fails on a missing attribute. *)
Theorem slots_present_invariant :
  (∀ n d cp pid s self, __init__ (R:=R) n d cp pid s = Ok self → slots_present self) ∧
  (∀ a b c d e f self, slots_present self →
     slots_present (_set_values a b c d e f self)) ∧
  (∀ p self, slots_present self → slots_present (_set_permissions p self)) ∧
  (∀ p ct self, slots_present self →
     slots_present (_set_default_permissions p ct self)) ∧
  (∀ v self r self', slots_present self →
     content_permissions_setter v self = (r, self') → slots_present self') ∧
  (∀ self c, slots_present self →
     default_permissions c self = Raise (UnpopulatedPropertyError ERROR_MSG) ∨
     ∃ populate, default_permissions c self = Ok (populate tt)).
Proof.
  split_and!.
  - intros n d cp pid s self [_ ->]%init_inv c. by rewrite constructed_slot.
  - intros a b c d e f self Hself k.
    destruct (_set_values_frame a b c d e f self) as (_ & _ & ->). apply Hself.
  - intros p self Hself k. apply Hself.
  - intros p ct self Hself k. unfold _set_default_permissions, setattr.
    cbn [__dict__]. rewrite lookup_insert. case_decide; [done | apply Hself].
  - intros v self r self' Hself.
    destruct (decide (v ∈ allowed_modes)) as [Hv|Hv].
    + rewrite (setter_allowed _ _ Hv). intros [= _ <-]. exact Hself.
    + rewrite (setter_rejected _ _ Hv). intros [= _ <-]. exact Hself.
  - intros self c Hself. rewrite default_permissions_eq. unfold getattr.
    destruct (Hself c) as [[populate|] ->]; cbn; eauto.
Qed.

(** *** Further properties of parsing *)

Lemma from_response_elem resp ns items self :
  from_response (R:=R) fromstring resp ns = Ok items → self ∈ items →
  ∃ el, self = item_of el.
Proof.
  rewrite from_response_eq.
  destruct (fromstring resp) as [root|e]; [|done]. cbn [mbind result_bind].
  destruct (ET.findall root "t" "project" ns) as [els|e]; [|done].
  cbn [mbind result_bind]. intros [= <-] (el & -> & _)%list_elem_of_fmap. eauto.
Qed.

Lemma later_None_non_empty v : later v None ≠ Some "".
Proof. unfold later. by destruct v as [[|]|]. Qed.

(** X8.  [from_response] raises exactly when the parser raised, with the
    parser's exception, or the prefix map has no entry for "t", with a
    SyntaxError; turning the elements found into items never raises. *)
Theorem from_response_raises resp ns e :
  from_response (R:=R) fromstring resp ns = Raise e ↔
  fromstring resp = Raise e ∨
  (∃ root, fromstring resp = Ok root ∧ ns !! "t" = None ∧ e = SyntaxError).
Proof.
  rewrite from_response_eq.
  destruct (fromstring resp) as [root|e']; cbn [mbind result_bind].
  - unfold ET.findall, ET.qname.
    destruct (ns !! "t") as [uri|]; cbn [mbind result_bind mret result_ret].
    + split; [done|]. by intros [|(? & _ & ? & _)].
    + split.
      * intros [= <-]. right. by exists root.
      * intros [|(? & _ & _ & ->)]; done.
  - split.
    + intros [= <-]. by left.
    + intros [[= <-]|(? & ? & _)]; done.
Qed.

(** X9.  Every item [from_response] returns is unpopulated: [permissions] and
    the nine default accessors raise UnpopulatedPropertyError until a
    provider is stored. *)
Theorem from_response_unpopulated resp ns items self :
  from_response fromstring resp ns = Ok items → self ∈ items →
  permissions self = Raise (UnpopulatedPropertyError ERROR_MSG) ∧
  ∀ c, default_permissions c self = Raise (UnpopulatedPropertyError ERROR_MSG).
Proof.
  intros Hitems Hself.
  destruct (from_response_elem _ _ _ _ Hitems Hself) as [el ->].
  unfold item_of.
  destruct (_set_values_frame (ET.get el "id") (ET.get el "name")
      (ET.get el "description") (ET.get el "contentPermissions")
      (ET.get el "parentProjectId")
      (last (ET.children el) ≫= λ owner, ET.get owner "id")
      (constructed (R:=R) None None None None None)) as (_ & Hp & Hdict).
  split.
  - unfold permissions. by rewrite Hp.
  - intros c. rewrite default_permissions_eq. unfold getattr.
    by rewrite Hdict, constructed_slot.
Qed.

(** X10.  No item [from_response] returns has an empty string for its name,
    description, content-permission mode, parent id or owner id: each is
    None or a non-empty string. *)
Theorem from_response_no_empty_field resp ns items self :
  from_response fromstring resp ns = Ok items → self ∈ items →
  name self ≠ Some "" ∧ description self ≠ Some "" ∧
  content_permissions self ≠ Some "" ∧ parent_id self ≠ Some "" ∧
  owner_id self ≠ Some "".
Proof.
  intros Hitems Hself.
  destruct (from_response_elem _ _ _ _ Hitems Hself) as [el ->].
  unfold item_of, name, content_permissions, owner_id.
  destruct (_set_values_later (ET.get el "id") (ET.get el "name")
      (ET.get el "description") (ET.get el "contentPermissions")
      (ET.get el "parentProjectId")
      (last (ET.children el) ≫= λ owner, ET.get owner "id")
      (constructed (R:=R) None None None None None)) as (_ & -> & -> & -> & -> & ->).
  cbn [constructed _name description _content_permissions parent_id _owner_id].
  split_and!; apply later_None_non_empty.
Qed.

(** *** Further properties of _parse_common_tags *)

(** X11.  [_parse_common_tags] leaves the item as it was on every input, and it
    returns normally only for a raw document that parses and holds no
    project element. *)
Theorem _parse_common_tags_unchanged project_xml ns self :
  snd (_parse_common_tags fromstring project_xml ns self) = self ∧
  (fst (_parse_common_tags fromstring project_xml ns self) = Ok tt ↔
   ∃ raw root, project_xml = inr raw ∧ fromstring raw = Ok root ∧
               ET.find root "t" "project" ns = Ok None).
Proof.
  unfold _parse_common_tags, Py.bind, ret, lift.
  destruct project_xml as [element|raw].
  - rewrite _parse_element_eq. cbn. split; [done|].
    split; [done | by intros (? & ? & ? & _)].
  - destruct (fromstring raw) as [root|e] eqn:Hroot; cbn [mbind result_bind].
    + destruct (ET.find root "t" "project" ns) as [[element|]|e] eqn:Hfind.
      * rewrite _parse_element_eq. cbn. split; [done|].
        split; [done|]. intros (? & ? & [= <-] & Hroot' & Hfind').
        rewrite Hroot in Hroot'. injection Hroot' as <-. by rewrite Hfind in Hfind'.
      * cbn. split; [done|]. split; [|done]. intros _. by exists raw, root.
      * cbn. split; [done|]. split; [done|].
        intros (? & ? & [= <-] & Hroot' & Hfind').
        rewrite Hroot in Hroot'. injection Hroot' as <-. by rewrite Hfind in Hfind'.
    + cbn. split; [done|]. split; [done|].
      intros (? & ? & [= <-] & Hroot' & _). by rewrite Hroot in Hroot'.
Qed.

(** *** Further properties of is_default and __repr__ *)

Lemma lower_ascii_idemp ch : lower_ascii (lower_ascii ch) = lower_ascii ch.
Proof. by destruct ch as [[] [] [] [] [] [] [] []]. Qed.

Lemma lower_idemp s : lower (lower s) = lower s.
Proof. induction s as [|ch s IH]; cbn; [done|]. by rewrite lower_ascii_idemp, IH. Qed.

Lemma length_lower s : String.length (lower s) = String.length s.
Proof. induction s as [|ch s IH]; cbn; [done | by rewrite IH]. Qed.

(** X12.  [is_default] raises, with an AttributeError, exactly when the item has
    no name; so it raises on the item parsed from an element whose name
    attribute is absent or empty, and returns on every other parsed item. *)
Theorem is_default_raises self :
  (is_default self = Raise AttributeError ↔ name self = None) ∧
  (∀ e, is_default self = Raise e → e = AttributeError) ∧
  (∀ el, from_xml el = Ok self →
     (is_default self = Raise AttributeError ↔ truthy (ET.get el "name") = false)).
Proof.
  assert (Hnone : is_default self = Raise AttributeError ↔ name self = None).
  { unfold is_default. by destruct (name self). }
  split_and!.
  - done.
  - unfold is_default. destruct (name self); [done|]. by intros e [= <-].
  - intros el. rewrite from_xml_eq. intros [= <-]. rewrite Hnone.
    unfold item_of, name.
    destruct (_set_values_later (ET.get el "id") (ET.get el "name")
      (ET.get el "description") (ET.get el "contentPermissions")
      (ET.get el "parentProjectId")
      (last (ET.children el) ≫= λ owner, ET.get owner "id")
      (constructed (R:=R) None None None None None)) as (_ & -> & _).
    cbn [constructed _name]. unfold later.
    destruct (ET.get el "name") as [[|ch s]|]; cbn; split; done.
Qed.

(** X13.  A default project has a name of exactly seven characters, and the
    answer of [is_default] does not change when the name is replaced by its
    lowercase. *)
Theorem is_default_name self :
  (is_default self = Ok true → ∃ s, name self = Some s ∧ String.length s = 7) ∧
  (∀ self' s, name self = Some s → name self' = Some (lower s) →
     is_default self' = is_default self).
Proof.
  unfold is_default. split.
  - destruct (name self) as [s|]; [|done].
    intros [= H%bool_decide_eq_true]. exists s. split; [done|].
    by rewrite <- length_lower, H.
  - intros self' s -> ->. by rewrite lower_idemp.
Qed.

Lemma or_else_non_empty v default :
  or_else v default = from_option (λ s, s) default (non_empty v).
Proof. unfold or_else, non_empty. by destruct v as [[|]|]. Qed.

(** X14.  [__repr__] shows the id, the name, the parent id and the mode and
    nothing else, and it shows an empty parent id or mode like an unset
    one: two items that agree on id and name, and on parent id and mode up
    to that, print the same. *)
Theorem __repr___agree self1 self2 :
  id self1 = id self2 → name self1 = name self2 →
  non_empty (parent_id self1) = non_empty (parent_id self2) →
  non_empty (content_permissions self1) = non_empty (content_permissions self2) →
  __repr__ self1 = __repr__ self2.
Proof.
  unfold __repr__, id. intros -> -> Hparent Hmode.
  by rewrite !or_else_non_empty, Hparent, Hmode.
Qed.

End Properties.

(** ** The statements at the sample documents *)

Lemma content_permissions_setter_spec_witness :
  ∃ self', content_permissions_setter (Some "ManagedByOwner") Sample.synced = (Ok tt, self') ∧
           content_permissions self' = Some "ManagedByOwner".
Proof.
  apply (proj2 (proj2 (content_permissions_setter_spec
                         (Some "ManagedByOwner") Sample.synced))).
  right; right; left; reflexivity.
Defined.

Lemma content_permissions_setter_atomic_witness :
  content_permissions_setter (Some "Bogus") Sample.synced
  = (Raise ValidationError, Sample.synced).
Proof.
  apply (content_permissions_setter_atomic (Some "Bogus") Sample.synced);
    discriminate.
Defined.

Lemma is_default_spec_witness :
  is_default (constructed (R:=nat) (Some "Default") None None None None) = Ok true ∧
  is_default (constructed (R:=nat) (Some "default ") None None None None) = Ok false.
Proof.
  split.
  - apply (proj1 (proj2 (proj2 (is_default_spec
             (constructed (Some "Default") None None None None))))).
    reflexivity.
  - apply (proj2 (proj2 (proj2 (is_default_spec
             (constructed (Some "default ") None None None None))))).
    reflexivity.
Defined.

Lemma _parse_element_owner_id_witness :
  _parse_element Sample.two_owners !! 5 = Some (Some "u2").
Proof.
  apply (proj1 (proj2 (proj2 (_parse_element_owner_id (R:=nat) Sample.two_owners)))
           [Sample.owner "u1"] (Sample.owner "u2")).
  reflexivity.
Defined.

(** C1 as stated fails: with two children carrying an id, the code returns
    the second one's. *)
Lemma _parse_element_owner_id_counterexample :
  spec_owner_id Sample.two_owners = Some "u1" ∧
  _parse_element Sample.two_owners !! 5 = Some (Some "u2") ∧
  _parse_element Sample.two_owners !! 5 ≠ Some (spec_owner_id Sample.two_owners).
Proof. split_and!; [reflexivity | reflexivity | discriminate]. Qed.

Lemma content_permissions_invariant_witness :
  content_permissions
    (constructed (R:=nat) None None (Some "ManagedByOwner") None None)
  ∈ allowed_modes.
Proof.
  apply (proj1 (content_permissions_invariant (R:=nat) Sample.fromstring)
           None None (Some "ManagedByOwner") None None).
  reflexivity.
Defined.

(** C2 as stated fails: parsing stores a mode outside the closed set. *)
Lemma content_permissions_invariant_counterexample :
  ∃ self : @ProjectItem nat,
    from_xml Sample.unknown_mode = Ok self ∧
    content_permissions self = Some "Bogus" ∧
    content_permissions self ∉ allowed_modes.
Proof.
  exists (item_of Sample.unknown_mode). split_and!.
  - apply from_xml_eq.
  - reflexivity.
  - intros H%allowed_modes_spec. by destruct H as [|[|[|]]].
Qed.

(** C4 as stated fails: an empty incoming id overwrites the stored id. *)
Lemma _set_values_spec_counterexample :
  id Sample.synced = Some "p1" ∧
  id (_set_values (Some "") None None None None None Sample.synced) = Some "" ∧
  id (_set_values (Some "") None None None None None Sample.synced)
    ≠ id Sample.synced.
Proof. split_and!; [reflexivity | reflexivity | discriminate]. Qed.

Lemma deferred_permissions_spec_witness :
  default_permissions Flow
    (_set_default_permissions (Some Sample.rules) "Flow" Sample.synced)
  = Ok 3.
Proof.
  destruct (deferred_permissions_spec Sample.synced) as (_ & _ & _ & Hdefault & _).
  destruct (Hdefault Flow) as (_ & _ & Hpopulated).
  apply (Hpopulated Sample.rules "Flow"). reflexivity.
Defined.

Lemma from_response_spec_witness :
  ∃ items : list (@ProjectItem nat),
    from_response Sample.fromstring "<tsResponse/>" Sample.ns = Ok items ∧
    length items = 2.
Proof.
  destruct (from_response_spec (R:=nat) Sample.fromstring "<tsResponse/>"
              Sample.ns Sample.response Sample.api eq_refl eq_refl)
    as (items & Hitems & Hlength & _).
  exists items. split; [exact Hitems | exact Hlength].
Defined.

(** C6 as stated fails: an attribute that is present but empty does not
    reach the item. *)
Lemma from_response_spec_counterexample :
  ∃ (items : list (@ProjectItem nat)) item,
    from_response Sample.fromstring "<tsResponse/>" Sample.ns = Ok items ∧
    ET.findall Sample.response "t" "project" Sample.ns
      = Ok [Sample.two_owners; Sample.unknown_mode] ∧
    items !! 0 = Some item ∧
    ET.get Sample.two_owners "description" = Some "" ∧
    description item = None ∧
    description item ≠ ET.get Sample.two_owners "description".
Proof.
  exists [item_of Sample.two_owners; item_of Sample.unknown_mode],
         (item_of Sample.two_owners).
  split_and!; [by rewrite from_response_eq | reflexivity.. | discriminate].
Qed.

Lemma _parse_common_tags_raises_witness :
  _parse_common_tags Sample.fromstring (inr "<tsResponse/>") Sample.ns Sample.synced
  = (Raise ValueError, Sample.synced).
Proof.
  apply (proj1 (proj2 (_parse_common_tags_raises Sample.fromstring
                         Sample.ns Sample.synced))
           "<tsResponse/>" Sample.response Sample.two_owners);
    reflexivity.
Defined.

(** C10 as stated fails: the exception is the ValueError of the unpacking,
    not a TypeError. *)
Lemma _parse_common_tags_raises_counterexample :
  fst (_parse_common_tags Sample.fromstring (inl Sample.two_owners)
         Sample.ns Sample.synced) = Raise ValueError ∧
  fst (_parse_common_tags Sample.fromstring (inl Sample.two_owners)
         Sample.ns Sample.synced) ≠ Raise TypeError.
Proof. split; [reflexivity | discriminate]. Qed.

(** ** The further statements at the sample documents *)

Lemma _set_values_nothing_witness :
  _set_values None (Some "") None None (Some "") None Sample.synced = Sample.synced.
Proof.
  apply (_set_values_nothing (Some "") None None (Some "") None Sample.synced);
    reflexivity.
Defined.

Lemma _set_values_never_erases_witness :
  truthy (name (_set_values None (Some "") None None None None Sample.synced)) = true.
Proof.
  apply (proj1 (proj2 (_set_values_never_erases
                         None (Some "") None None None None Sample.synced))).
  reflexivity.
Defined.



Lemma slots_present_invariant_witness :
  slots_present (_set_default_permissions (Some Sample.rules) "flow" Sample.top_level).
Proof.
  destruct (slots_present_invariant (R:=nat)) as (Hinit & _ & _ & Hdefault & _).
  apply Hdefault.
  apply (Hinit (Some "Default") None None None None). reflexivity.
Defined.

Lemma from_response_raises_witness :
  from_response (R:=nat) Sample.fromstring "<tsResponse" Sample.ns = Raise ParseError.
Proof.
  apply (proj2 (from_response_raises Sample.fromstring "<tsResponse" Sample.ns
                  ParseError)).
  left. reflexivity.
Defined.

Lemma from_response_unpopulated_witness :
  permissions (item_of (R:=nat) Sample.two_owners)
    = Raise (UnpopulatedPropertyError ERROR_MSG) ∧
  ∀ c, default_permissions c (item_of (R:=nat) Sample.two_owners)
       = Raise (UnpopulatedPropertyError ERROR_MSG).
Proof.
  apply (from_response_unpopulated Sample.fromstring "<tsResponse/>" Sample.ns
           Sample.items).
  - reflexivity.
  - apply list_elem_of_here.
Defined.

Lemma from_response_no_empty_field_witness :
  description (item_of (R:=nat) Sample.two_owners) ≠ Some "".
Proof.
  apply (from_response_no_empty_field Sample.fromstring "<tsResponse/>" Sample.ns
           Sample.items (item_of Sample.two_owners)).
  - reflexivity.
  - apply list_elem_of_here.
Defined.

Lemma _parse_common_tags_unchanged_witness :
  fst (_parse_common_tags Sample.fromstring (inr "<tsResponse/>") Sample.other_ns
         Sample.synced) = Ok tt.
Proof.
  apply (proj2 (proj2 (_parse_common_tags_unchanged Sample.fromstring
                         (inr "<tsResponse/>") Sample.other_ns Sample.synced))).
  exists "<tsResponse/>", Sample.response. split_and!; reflexivity.
Defined.

Lemma is_default_raises_witness :
  is_default (item_of (R:=nat) (Sample.owner "u1")) = Raise AttributeError.
Proof.
  apply (proj2 (proj2 (is_default_raises (item_of (R:=nat) (Sample.owner "u1"))))
           (Sample.owner "u1")).
  - apply from_xml_eq.
  - reflexivity.
Defined.

Lemma is_default_name_witness :
  is_default (constructed (R:=nat) (Some "default") None None None None)
  = is_default Sample.top_level.
Proof.
  apply (proj2 (is_default_name Sample.top_level)
           (constructed (Some "default") None None None None) "Default");
    reflexivity.
Defined.

Lemma __repr___agree_witness :
  __repr__ Sample.top_level = __repr__ Sample.top_level'.
Proof.
  apply (__repr___agree Sample.top_level Sample.top_level'); reflexivity.
Defined.
